(** * The TPG261 gauge-controller client: protocol exchanges over a serial port

    A shallow embedding of [mod_Pfieffer_TPG261.py] (class
    [pfieffer_single_gauge_TPG261]) together with the facts the written
    specification states about it.

    Layout:
    - the Python values and built-ins the class relies on (bytes, str,
      [bytes.strip], [bytes.decode], [str.split], tuple unpacking, [int],
      [float], [%i] and [%.3f]);
    - the serial port object the class owns ([self.ser]) and the process'
      standard output, threaded through a state and exception monad;
    - the methods of the class, one definition per method;
    - the theorems, one group per specified property.

    What is outside the module is modelled as documented: the built-ins of
    the interpreter, and the port object of the serial library, whose
    [write] and [readline] raise on a closed port and whose [close] does
    nothing on a closed port.  Resource limits of the interpreter (memory,
    the cap on the length of the numerals [int] and ['%i'] convert) are
    left out. *)

From Stdlib Require Import ZArith NArith Ascii String List Bool Lia SpecFloat.
From stdpp Require Import base tactics option list strings gmap.

Set Default Proof Using "Type".

(** ** Python values *)

(** [bytes] / [bytearray]: a sequence of 8-bit values. *)
Abbreviation bytes := (list ascii).

(** [str]: a sequence of Unicode code points. *)
Abbreviation str := (list N).

(** [float]: IEEE-754 binary64, as the standard library specifies it. *)
Abbreviation float := spec_float.

Definition prec : Z := 53.
Definition emax : Z := 1024.

(** A [bytes] literal and a [str] literal (ASCII text only). *)
Definition b (s : string) : bytes := list_ascii_of_string s.
Definition u (s : string) : str := map N_of_ascii (list_ascii_of_string s).

(** The exceptions that can leave a method of the class. *)
Inductive value_error :=
  | NotEnoughValues (expected got : nat)   (* not enough values to unpack *)
  | TooManyValues (expected : nat)         (* too many values to unpack *)
  | InvalidIntLiteral (s : str)            (* invalid literal for int() *)
  | InvalidFloatLiteral (s : str).         (* could not convert string to float *)

Inductive exn :=
  | PfeifferException (msg : str)
  | ValueError (why : value_error)
  | KeyError (key : Z)
  | UnicodeDecodeError
  | UnicodeEncodeError
  | PortNotOpenError.

(** The outcome of an expression that may raise. *)
Inductive result (A : Type) :=
  | Ok (a : A)
  | Err (e : exn).
Arguments Ok {A} a.
Arguments Err {A} e.

(** *** [bytes.strip()] *)

(** ASCII whitespace, the bytes [b' \t\n\r\x0b\x0c']. *)
Definition is_space_byte (c : ascii) : bool :=
  let n := N_of_ascii c in
  ((9 <=? n) && (n <=? 13) || (n =? 32))%N.

Fixpoint lstrip (l : bytes) : bytes :=
  match l with
  | c :: l' => if is_space_byte c then lstrip l' else l
  | [] => []
  end.

Definition rstrip (l : bytes) : bytes := rev (lstrip (rev l)).

Definition strip (l : bytes) : bytes := rstrip (lstrip l).

(** *** [bytes.decode('utf-8')], strict *)

Definition is_cont (n : N) : bool := ((0x80 <=? n) && (n <=? 0xBF))%N.
Definition in_range (lo hi n : N) : bool := ((lo <=? n) && (n <=? hi))%N.

Fixpoint utf8_points (l : list N) : option str :=
  match l with
  | [] => Some []
  | b0 :: r0 =>
    if (b0 <? 0x80)%N then cons b0 <$> utf8_points r0
    else if in_range 0xC2 0xDF b0 then
      match r0 with
      | b1 :: r1 =>
        if is_cont b1
        then cons ((b0 - 0xC0) * 64 + (b1 - 0x80))%N <$> utf8_points r1
        else None
      | _ => None
      end
    else if in_range 0xE0 0xEF b0 then
      match r0 with
      | b1 :: b2 :: r2 =>
        if in_range (if (b0 =? 0xE0)%N then 0xA0 else 0x80)
                    (if (b0 =? 0xED)%N then 0x9F else 0xBF) b1
           && is_cont b2
        then cons ((b0 - 0xE0) * 4096 + (b1 - 0x80) * 64 + (b2 - 0x80))%N
               <$> utf8_points r2
        else None
      | _ => None
      end
    else if in_range 0xF0 0xF4 b0 then
      match r0 with
      | b1 :: b2 :: b3 :: r3 =>
        if in_range (if (b0 =? 0xF0)%N then 0x90 else 0x80)
                    (if (b0 =? 0xF4)%N then 0x8F else 0xBF) b1
           && is_cont b2 && is_cont b3
        then cons ((b0 - 0xF0) * 262144 + (b1 - 0x80) * 4096
                   + (b2 - 0x80) * 64 + (b3 - 0x80))%N
               <$> utf8_points r3
        else None
      | _ => None
      end
    else None
  end.

Definition decode_utf8 (l : bytes) : result str :=
  match utf8_points (map N_of_ascii l) with
  | Some s => Ok s
  | None => Err UnicodeDecodeError
  end.

(** *** [bytearray(s, 'ascii')] *)

Definition ascii_only (s : str) : bool := forallb (fun c => (c <? 128)%N) s.

Definition encode_ascii (s : str) : bytes := map ascii_of_N s.

Definition bytearray_ascii (s : str) : result bytes :=
  if ascii_only s then Ok (encode_ascii s) else Err UnicodeEncodeError.

(** *** [str.split(",")] *)

Definition comma : N := 44.

Fixpoint split_comma (s : str) : list str :=
  match s with
  | [] => [[]]
  | c :: s' =>
    if (c =? comma)%N then [] :: split_comma s'
    else match split_comma s' with
         | f :: fs => (c :: f) :: fs
         | [] => [[c]]
         end
  end.

(** *** [a, b = fields] *)

Definition unpack2 (fields : list str) : result (str * str) :=
  match fields with
  | [x; y] => Ok (x, y)
  | [] => Err (ValueError (NotEnoughValues 2 0))
  | [_] => Err (ValueError (NotEnoughValues 2 1))
  | _ => Err (ValueError (TooManyValues 2))
  end.

(** *** Decimal digits *)

Definition is_digit (c : N) : bool := ((48 <=? c) && (c <=? 57))%N.

(** C's [Py_ISSPACE]: tab, line feed, vertical tab, form feed, carriage
    return and space. *)
Definition is_space (c : N) : bool := ((9 <=? c) && (c <=? 13) || (c =? 32))%N.

(** [str.isspace] on a code point outside ASCII. *)
Definition is_unicode_space (c : N) : bool :=
  ((c =? 0x85) || (c =? 0xA0) || (c =? 0x1680)
   || ((0x2000 <=? c) && (c <=? 0x200A))
   || (c =? 0x2028) || (c =? 0x2029) || (c =? 0x202F)
   || (c =? 0x205F) || (c =? 0x3000))%N.

Fixpoint uint_chars (d : Decimal.uint) : str :=
  match d with
  | Decimal.Nil => []
  | Decimal.D0 r => 48 :: uint_chars r | Decimal.D1 r => 49 :: uint_chars r
  | Decimal.D2 r => 50 :: uint_chars r | Decimal.D3 r => 51 :: uint_chars r
  | Decimal.D4 r => 52 :: uint_chars r | Decimal.D5 r => 53 :: uint_chars r
  | Decimal.D6 r => 54 :: uint_chars r | Decimal.D7 r => 55 :: uint_chars r
  | Decimal.D8 r => 56 :: uint_chars r | Decimal.D9 r => 57 :: uint_chars r
  end%N.

(** The decimal digits of a natural number, most significant first;
    ["0"] for zero. *)
Definition decimal (n : N) : str := uint_chars (N.to_uint n).

(** ['%i' % z] for an [int] [z]. *)
Definition fmt_i (z : Z) : str :=
  match z with
  | Zneg p => 45%N :: decimal (Npos p)
  | _ => decimal (Z.to_N z)
  end.

(** *** [int(s)] and [float(s)] for a [str] *)

Section Numbers.

(** The decimal value the interpreter's Unicode database gives a code
    point outside ASCII ([Py_UNICODE_TODECIMAL]), [None] when the character
    is no decimal digit.  The table belongs to the interpreter, so it is a
    parameter here. *)
Variable unicode_decimal : N -> option N.

(** Both conversions first rewrite the text to ASCII: Unicode spaces become
    a space, Unicode decimal digits the ASCII digit, and the text is cut at
    the first other non-ASCII character, which is replaced by ['?']. *)
Fixpoint transform_slow (s : str) : str :=
  match s with
  | [] => []
  | c :: s' =>
    if (c <? 127)%N then c :: transform_slow s'
    else if is_unicode_space c then 32%N :: transform_slow s'
    else match unicode_decimal c with
         | Some d => (48 + d)%N :: transform_slow s'
         | None => [63%N]
         end
  end.

Definition transform_decimal_and_space (s : str) : str :=
  if ascii_only s then s else transform_slow s.

Fixpoint skip_spaces (s : str) : str :=
  match s with
  | c :: s' => if is_space c then skip_spaces s' else s
  | [] => []
  end.

(** An optional sign; [true] for ['-']. *)
Definition read_sign (s : str) : bool * str :=
  match s with
  | 43%N :: r => (false, r)
  | 45%N :: r => (true, r)
  | _ => (false, s)
  end.

(** [digits_us acc s] reads [(digit | '_' digit)*] after a first digit,
    accumulating the value; [None] on an underscore that no digit follows. *)
Fixpoint digits_us (acc : N) (s : str) : option (N * str) :=
  match s with
  | c :: s' =>
    if is_digit c then digits_us (10 * acc + (c - 48))%N s'
    else if (c =? 95)%N then
      match s' with
      | d :: s'' =>
        if is_digit d then digits_us (10 * acc + (d - 48))%N s'' else None
      | [] => None
      end
    else Some (acc, s)
  | [] => Some (acc, [])
  end.

Definition py_int (s : str) : result Z :=
  let t := skip_spaces (transform_decimal_and_space s) in
  let '(neg, t) := read_sign t in
  match t with
  | c :: t' =>
    if is_digit c then
      match digits_us (c - 48)%N t' with
      | Some (n, rest) =>
        match skip_spaces rest with
        | [] => Ok (if neg then (- Z.of_N n)%Z else Z.of_N n)
        | _ => Err (ValueError (InvalidIntLiteral s))
        end
      | None => Err (ValueError (InvalidIntLiteral s))
      end
    else Err (ValueError (InvalidIntLiteral s))
  | [] => Err (ValueError (InvalidIntLiteral s))
  end.

(** [float]: surrounding spaces are dropped, an underscore must stand
    between two digits, and what remains is a decimal numeral or one of
    [inf], [infinity], [nan] in any case, each with an optional sign. *)
Definition rskip_spaces (s : str) : str := rev (skip_spaces (rev s)).

Fixpoint underscores_ok (prev : N) (s : str) : bool :=
  match s with
  | [] => negb (prev =? 95)%N
  | c :: s' =>
    (if (c =? 95)%N then is_digit prev
     else if (prev =? 95)%N then is_digit c else true)
    && underscores_ok c s'
  end.

Definition drop_underscores (s : str) : str :=
  List.filter (fun c => negb (c =? 95)%N) s.

(** A maximal run of digits: their values and the rest of the text. *)
Fixpoint span_digits (s : str) : list N * str :=
  match s with
  | c :: s' =>
    if is_digit c
    then let '(ds, r) := span_digits s' in ((c - 48)%N :: ds, r)
    else ([], s)
  | [] => ([], [])
  end.

Definition digits_value (ds : list N) : N :=
  fold_left (fun a d => (10 * a + d)%N) ds 0%N.

(** The binary64 nearest to [(-1)^neg * m * 10^e], ties to even. *)
Definition round_decimal (neg : bool) (m : N) (e : Z) : float :=
  match m with
  | N0 => S754_zero neg
  | Npos p =>
    match e with
    | Zneg k =>
      SFdiv prec emax (S754_finite neg p 0) (S754_finite false (10 ^ k) 0)
    | _ => binary_round prec emax neg (p * Z.to_pos (10 ^ e)) 0
    end
  end.

Definition parse_decimal (t : str) : option float :=
  let '(neg, t) := read_sign t in
  let '(ip, t) := span_digits t in
  let '(fp, t) := match t with
                  | 46%N :: r => span_digits r
                  | _ => ([], t)
                  end in
  let m := digits_value (ip ++ fp) in
  let scale := (- Z.of_nat (length fp))%Z in
  match ip ++ fp with
  | [] => None
  | _ :: _ =>
    match t with
    | [] => Some (round_decimal neg m scale)
    | c :: t' =>
      if (c =? 101)%N || (c =? 69)%N then
        let '(eneg, t') := read_sign t' in
        match span_digits t' with
        | ((_ :: _) as ed, []) =>
          let x := Z.of_N (digits_value ed) in
          Some (round_decimal neg m ((if eneg then - x else x) + scale)%Z)
        | _ => None
        end
      else None
    end
  end.

Definition lower (c : N) : N :=
  if ((65 <=? c) && (c <=? 90))%N then (c + 32)%N else c.

Definition parse_inf_or_nan (t : str) : option float :=
  let '(neg, t) := read_sign t in
  let w := map lower t in
  if decide (w = u "inf" \/ w = u "infinity") then Some (S754_infinity neg)
  else if decide (w = u "nan") then Some S754_nan
  else None.

Definition py_float (s : str) : result float :=
  let t := rskip_spaces (skip_spaces (transform_decimal_and_space s)) in
  if underscores_ok 0%N t then
    let t := drop_underscores t in
    match parse_decimal t with
    | Some x => Ok x
    | None =>
      match parse_inf_or_nan t with
      | Some x => Ok x
      | None => Err (ValueError (InvalidFloatLiteral s))
      end
    end
  else Err (ValueError (InvalidFloatLiteral s)).

End Numbers.

(** *** ['%.3f' % x] *)

(** [float(z)] for an [int] [z] within the range of [float]. *)
Definition float_of_int (z : Z) : float := binary_normalize prec emax z 0 false.

(** [m * 2^e * 1000] rounded to an integer, ties to even. *)
Definition thousandths (m : positive) (e : Z) : N :=
  match e with
  | Zneg k =>
    let num := (Npos m * 1000)%N in
    let den := (2 ^ Npos k)%N in
    let q := (num / den)%N in
    let r := (num mod den)%N in
    if (den <? 2 * r)%N then (q + 1)%N
    else if (den =? 2 * r)%N && N.odd q then (q + 1)%N
    else q
  | _ => (Npos m * 2 ^ Z.to_N e * 1000)%N
  end.

Definition three_digits (n : N) : str :=
  [48 + n / 100; 48 + (n / 10) mod 10; 48 + n mod 10]%N.

Definition fixed3 (neg : bool) (q : N) : str :=
  (if neg then [45%N] else []) ++ decimal (q / 1000) ++ [46%N]
  ++ three_digits (q mod 1000).

Definition fmt_3f (x : float) : str :=
  match x with
  | S754_nan => u "nan"
  | S754_infinity neg => (if neg then [45%N] else []) ++ u "inf"
  | S754_zero neg => fixed3 neg 0
  | S754_finite neg m e => fixed3 neg (thousandths m e)
  end.

(** ** The serial port, the standard output and the exception monad *)

(** What happens on the port, in order. *)
Inductive io_event :=
  | Wrote (data : bytes)       (* [write(data)] on the open port *)
  | ReadLine (data : bytes)    (* [readline()] on the open port returned [data] *)
  | Released.                  (* the operating-system resource was given back *)

(** The [serial.Serial] object held in [self.ser].  [rx] is what the
    following [readline()] calls return, in order, each element with its
    line terminator when the device sent one; a call that finds [rx] empty
    returns the empty [bytes], which is how a read timeout shows.  [log] is
    the history of the port, oldest event first. *)
Record Serial := mkSerial {
  is_open : bool;
  rx : list bytes;
  log : list io_event;
}.

(** The state a method runs in: the port and what was printed so far. *)
Record world := mkWorld {
  ser : Serial;
  stdout : list str;
}.

Definition M (A : Type) : Type := world -> result A * world.

Definition ret {A} (a : A) : M A := fun w => (Ok a, w).

Definition raise {A} (e : exn) : M A := fun w => (Err e, w).

Definition bind {A B} (m : M A) (k : A -> M B) : M B :=
  fun w =>
    match m w with
    | (Ok a, w') => k a w'
    | (Err e, w') => (Err e, w')
    end.

Definition lift {A} (r : result A) : M A := fun w => (r, w).

Notation "x <- m ;; k" := (bind m (fun x => k))
  (at level 100, m at next level, right associativity).
Notation "m ;; k" := (bind m (fun _ => k))
  (at level 100, right associativity).

(** The three methods of the port the class calls.  On a closed port
    [write] and [readline] raise and [close] does nothing. *)
Definition ser_write (data : bytes) : M nat :=
  fun w =>
    let p := ser w in
    if is_open p
    then (Ok (length data),
          mkWorld (mkSerial true (rx p) (log p ++ [Wrote data])) (stdout w))
    else (Err PortNotOpenError, w).

Definition ser_readline : M bytes :=
  fun w =>
    let p := ser w in
    if is_open p
    then let line := hd [] (rx p) in
         (Ok line,
          mkWorld (mkSerial true (tl (rx p)) (log p ++ [ReadLine line]))
                  (stdout w))
    else (Err PortNotOpenError, w).

Definition ser_close : M unit :=
  fun w =>
    let p := ser w in
    if is_open p
    then (Ok tt, mkWorld (mkSerial false (rx p) (log p ++ [Released])) (stdout w))
    else (Ok tt, w).

(** [print(s)]. *)
Definition print (s : str) : M unit :=
  fun w => (Ok tt, mkWorld (ser w) (stdout w ++ [s])).

(** [d[k]] for a [dict] with [int] keys. *)
Definition getitem (d : gmap Z str) (k : Z) : M str :=
  match d !! k with
  | Some v => ret v
  | None => raise (KeyError k)
  end.

(** ** The module [mod_Pfieffer_TPG261] *)

Definition CR : bytes := [ascii_of_N 0x0d].
Definition LF : bytes := [ascii_of_N 0x0a].
Definition ETX : bytes := [ascii_of_N 0x03].
Definition ENQ : bytes := [ascii_of_N 0x05].
Definition ACK : bytes := [ascii_of_N 0x06].
Definition NAK : bytes := [ascii_of_N 0x15].

(** The double-quote character, for the messages that quote a command. *)
Definition dquote : str := [34%N].

Section pfieffer_single_gauge_TPG261.

Variable unicode_decimal : N -> option N.

Definition messages : gmap Z str :=
  list_to_map
    [(0, u "Passed"); (1, u "Underrange"); (2, u "Overrange");
     (3, u "Sensor Error"); (4, u "Sensor off"); (5, u "No Sensor");
     (6, u "ID Error")]%Z.

Definition get_pressure (gauge : Z) : M (str * float) :=
  cmd <- lift (bytearray_ascii (u "PR" ++ fmt_i gauge)) ;;
  ser_write (cmd ++ CR ++ LF) ;;
  line <- ser_readline ;;
  let line := strip line in
  if decide (line <> ACK)
  then raise (PfeifferException
                (u "Error Sending " ++ dquote ++ u "PR" ++ fmt_i gauge ++ dquote))
  else
    ser_write ENQ ;;
    line <- ser_readline ;;
    line <- lift (decode_utf8 (strip line)) ;;
    fields <- lift (unpack2 (split_comma line)) ;;
    let '(status, value) := fields in
    status <- lift (py_int unicode_decimal status) ;;
    (if decide (status <> 0%Z)
     then label <- getitem messages status ;; print label
     else ret tt) ;;
    label <- getitem messages status ;;
    value <- lift (py_float unicode_decimal value) ;;
    ret (label, value).

Definition get_gauge_type : M (str * str) :=
  cmd <- lift (bytearray_ascii (u "TID")) ;;
  ser_write (cmd ++ CR ++ LF) ;;
  line <- ser_readline ;;
  let line := strip line in
  if decide (line <> ACK)
  then raise (PfeifferException
                (u "Error sending " ++ dquote ++ u "TID" ++ dquote))
  else
    ser_write ENQ ;;
    line <- ser_readline ;;
    line <- lift (decode_utf8 (strip line)) ;;
    fields <- lift (unpack2 (split_comma line)) ;;
    let '(gauge_1, gauge_2) := fields in
    ret (gauge_1, gauge_2).

Definition get_calibration_factor : M (str * str) :=
  cmd <- lift (bytearray_ascii (u "CAl")) ;;
  ser_write (cmd ++ CR ++ LF) ;;
  line <- ser_readline ;;
  ser_write ENQ ;;
  line <- ser_readline ;;
  line <- lift (decode_utf8 (strip line)) ;;
  fields <- lift (unpack2 (split_comma line)) ;;
  let '(G1_cal, G2_cal) := fields in
  ret (G1_cal, G2_cal).

(** The method returns [None] when [gauge] is neither 1 nor 2. *)
Definition set_calibration_factor (gauge : Z) (cal : float) : M (option str) :=
  if decide (gauge = 1%Z) then
    cmd <- lift (bytearray_ascii
                   (u "CAL," ++ fmt_3f cal ++ u "," ++ fmt_3f (float_of_int 1))) ;;
    ser_write (cmd ++ CR ++ LF) ;;
    line <- ser_readline ;;
    let line := strip line in
    if decide (line <> ACK)
    then raise (PfeifferException (u "Error sending Calibration factor"))
    else
      ser_write ENQ ;;
      line <- ser_readline ;;
      line <- lift (decode_utf8 (strip line)) ;;
      fields <- lift (unpack2 (split_comma line)) ;;
      let '(G1_cal, G2_cal) := fields in
      ret (Some G1_cal)
  else if decide (gauge = 2%Z) then
    cmd <- lift (bytearray_ascii
                   (u "CAL," ++ fmt_3f (float_of_int 1) ++ u "," ++ fmt_3f cal)) ;;
    ser_write (cmd ++ CR ++ LF) ;;
    line <- ser_readline ;;
    let line := strip line in
    if decide (line <> ACK)
    then raise (PfeifferException (u "Error sending Calibration factor"))
    else
      ser_write ENQ ;;
      line <- ser_readline ;;
      line <- lift (decode_utf8 (strip line)) ;;
      fields <- lift (unpack2 (split_comma line)) ;;
      let '(G1_cal, G2_cal) := fields in
      ret (Some G2_cal)
  else ret None.

Definition units : gmap Z str :=
  list_to_map [(0, u "mbar/bar"); (1, u "Torr"); (2, u "Pascal")]%Z.

Definition set_units (unit : Z) : M Datatypes.unit :=
  cmd <- lift (bytearray_ascii (u "UNI," ++ fmt_i unit)) ;;
  ser_write (cmd ++ CR ++ LF) ;;
  line <- ser_readline ;;
  let line := strip line in
  if decide (line <> ACK)
  then raise (PfeifferException (u "Error changing units"))
  else
    ser_write ENQ ;;
    line <- ser_readline ;;
    line <- lift (decode_utf8 (strip line)) ;;
    code <- lift (py_int unicode_decimal line) ;;
    label <- getitem units code ;;
    print (u "The TPG261 default units are set to " ++ label).

Definition Filter : gmap Z str :=
  list_to_map [(0, u "fast"); (1, u "medium (default)"); (2, u "slow")]%Z.

Definition set_filter (G1 G2 : Z) : M unit :=
  cmd <- lift (bytearray_ascii (u "FIL," ++ fmt_i G1 ++ u "," ++ fmt_i G2)) ;;
  ser_write (cmd ++ CR ++ LF) ;;
  line <- ser_readline ;;
  let line := strip line in
  if decide (line <> ACK)
  then raise (PfeifferException (u "Error changing the filter speed to fast"))
  else
    ser_write ENQ ;;
    line <- ser_readline ;;
    line <- lift (decode_utf8 (strip line)) ;;
    fields <- lift (unpack2 (split_comma line)) ;;
    let '(gauge1, gauge2) := fields in
    code1 <- lift (py_int unicode_decimal gauge1) ;;
    label1 <- getitem Filter code1 ;;
    code2 <- lift (py_int unicode_decimal gauge2) ;;
    label2 <- getitem Filter code2 ;;
    print (u "The TPG261 Filter speed for Gauge 1 is " ++ label1
           ++ u " and for Gauge 2 is " ++ label2).

Definition Resolution : gmap Z str :=
  list_to_map [(2, u "2 digits"); (3, u "3 digits")]%Z.

Definition set_display_resolution : M unit :=
  let resolution := 3%Z in
  cmd <- lift (bytearray_ascii (u "DCD," ++ fmt_i resolution)) ;;
  ser_write (cmd ++ CR ++ LF) ;;
  line <- ser_readline ;;
  let line := strip line in
  if decide (line <> ACK)
  then raise (PfeifferException (u "Error in changing the display resolution"))
  else
    ser_write ENQ ;;
    res <- ser_readline ;;
    res <- lift (decode_utf8 (strip res)) ;;
    code <- lift (py_int unicode_decimal res) ;;
    label <- getitem Resolution code ;;
    print (u "The display resolution has been set to " ++ label ++ u " digits.").

Definition close : M unit := ser_close.

(** [__init__], once [serial.Serial(...)] has opened the port: the start
    state is a [world] whose port is open. *)
Definition __init__ : M unit :=
  set_filter 1 1 ;;
  set_calibration_factor 1 (float_of_int 1) ;;
  set_calibration_factor 2 (float_of_int 1) ;;
  set_display_resolution.

End pfieffer_single_gauge_TPG261.

(** ** Worlds and scripts used in the statements *)

(** An open port that has seen nothing yet, with the given replies queued. *)
Definition fresh (replies : list bytes) : world :=
  mkWorld (mkSerial true replies []) [].

(** A reply line as the device sends it: the text, then CR LF. *)
Definition reply (text : bytes) : bytes := text ++ CR ++ LF.

(** The first and the second line the port will deliver. *)
Definition line1 (w : world) : bytes := hd [] (rx (ser w)).
Definition line2 (w : world) : bytes := hd [] (tl (rx (ser w))).

(** The world after the port went through [events] and delivered the first
    [n] queued lines, and [out] was printed. *)
Definition after (w : world) (n : nat) (events : list io_event)
    (out : list str) : world :=
  mkWorld (mkSerial (is_open (ser w)) (Nat.iter n (@tl bytes) (rx (ser w)))
                    (log (ser w) ++ events))
          (stdout w ++ out).

(** The events of an exchange that stops at the acknowledgement, and of a
    complete exchange. *)
Definition refused (cmd : bytes) (w : world) : list io_event :=
  [Wrote cmd; ReadLine (line1 w)].

Definition exchanged (cmd : bytes) (w : world) : list io_event :=
  [Wrote cmd; ReadLine (line1 w); Wrote ENQ; ReadLine (line2 w)].

(** The commands as they go on the wire. *)
Definition wire (command : str) : bytes := encode_ascii command ++ CR ++ LF.

(** The two halves of an exchange as the methods write them out: the
    command with its acknowledgement check, and the data request with the
    decoding of the answer.  Each method below is shown to be an instance. *)
Definition acknowledged {A} (command complaint : str) (k : M A) : M A :=
  cmd <- lift (bytearray_ascii command) ;;
  ser_write (cmd ++ CR ++ LF) ;;
  line <- ser_readline ;;
  let line := strip line in
  if decide (line <> ACK) then raise (PfeifferException complaint) else k.

Definition requested {A} (k : str -> M A) : M A :=
  ser_write ENQ ;;
  line <- ser_readline ;;
  line <- lift (decode_utf8 (strip line)) ;;
  k line.

(** The unpacking of a data line into two fields. *)
Definition two_fields {A} (k : str -> str -> M A) (line : str) : M A :=
  fields <- lift (unpack2 (split_comma line)) ;;
  let '(x, y) := fields in k x y.

(** The [ValueError] of an unpacking that finds [n] fields instead of two. *)
Definition unpack_error (n : nat) : exn :=
  ValueError (if (n <? 2)%nat then NotEnoughValues 2 n else TooManyValues 2).

(** What [get_pressure] does with the two fields of its data line. *)
Definition pressure_reading (unicode_decimal : N -> option N)
    (status value : str) : M (str * float) :=
  status <- lift (py_int unicode_decimal status) ;;
  (if decide (status <> 0%Z)
   then label <- getitem messages status ;; print label
   else ret tt) ;;
  label <- getitem messages status ;;
  value <- lift (py_float unicode_decimal value) ;;
  ret (label, value).

(** What [set_units] does with its data line. *)
Definition units_report (unicode_decimal : N -> option N) (line : str)
    : M Datatypes.unit :=
  code <- lift (py_int unicode_decimal line) ;;
  label <- getitem units code ;;
  print (u "The TPG261 default units are set to " ++ label).

(** What [set_filter] does with the two fields of its data line. *)
Definition filter_report (unicode_decimal : N -> option N)
    (gauge1 gauge2 : str) : M Datatypes.unit :=
  code1 <- lift (py_int unicode_decimal gauge1) ;;
  label1 <- getitem Filter code1 ;;
  code2 <- lift (py_int unicode_decimal gauge2) ;;
  label2 <- getitem Filter code2 ;;
  print (u "The TPG261 Filter speed for Gauge 1 is " ++ label1
         ++ u " and for Gauge 2 is " ++ label2).

(** What [set_display_resolution] does with its data line. *)
Definition resolution_report (unicode_decimal : N -> option N) (res : str)
    : M Datatypes.unit :=
  code <- lift (py_int unicode_decimal res) ;;
  label <- getitem Resolution code ;;
  print (u "The display resolution has been set to " ++ label ++ u " digits.").

(** The characters an [int] literal is made of: digits, spaces, the two
    signs and the underscore. *)
Definition numeral_char (c : N) : bool :=
  is_digit c || is_space c || (c =? 43)%N || (c =? 45)%N || (c =? 95)%N.

(** [needle in hay] for two [str]. *)
Fixpoint starts_with (needle hay : str) : bool :=
  match needle, hay with
  | [], _ => true
  | c :: n', d :: h' => (c =? d)%N && starts_with n' h'
  | _ :: _, [] => false
  end.

Fixpoint contains (needle hay : str) : bool :=
  starts_with needle hay ||
  match hay with
  | [] => false
  | _ :: h' => contains needle h'
  end.

(** How many times the port gave its resource back. *)
Definition releases (w : world) : nat :=
  length (List.filter (fun e => match e with Released => true | _ => false end)
                 (log (ser w))).

(** The seven status labels, by status code. *)
Definition status_labels : list str :=
  [u "Passed"; u "Underrange"; u "Overrange"; u "Sensor Error";
   u "Sensor off"; u "No Sensor"; u "ID Error"].

(** The binary64 value of the literal [1.0e-5]. *)
Definition float_1e_5 : float := S754_finite false 5902958103587057 (-69).

(** A digit table without entries; texts that are ASCII never consult the
    table. *)
Definition no_unicode_digits : N -> option N := fun _ => None.

(** * Facts about the built-ins *)

Lemma ascii_only_app (s t : str) :
  ascii_only (s ++ t) = ascii_only s && ascii_only t.
Proof. unfold ascii_only. apply forallb_app. Qed.

Lemma uint_chars_ascii (d : Decimal.uint) : ascii_only (uint_chars d) = true.
Proof. induction d; simpl; auto. Qed.

Lemma decimal_ascii (n : N) : ascii_only (decimal n) = true.
Proof. apply uint_chars_ascii. Qed.

Lemma fmt_i_ascii (z : Z) : ascii_only (fmt_i z) = true.
Proof.
  destruct z as [| p | p]; unfold fmt_i.
  - apply decimal_ascii.
  - apply decimal_ascii.
  - change (45%N :: decimal (Npos p)) with ([45%N] ++ decimal (Npos p)).
    rewrite ascii_only_app, decimal_ascii. reflexivity.
Qed.

Lemma three_digits_ascii (n : N) :
  (n < 1000)%N -> ascii_only (three_digits n) = true.
Proof.
  intros Hn. unfold three_digits, ascii_only. simpl.
  assert (n / 100 < 10)%N by (apply N.Div0.div_lt_upper_bound; lia).
  assert ((n / 10) mod 10 < 10)%N by (apply N.mod_lt; lia).
  assert (n mod 10 < 10)%N by (apply N.mod_lt; lia).
  repeat (apply andb_true_intro; split); try reflexivity; apply N.ltb_lt; lia.
Qed.

Lemma fixed3_ascii (neg : bool) (q : N) : ascii_only (fixed3 neg q) = true.
Proof.
  unfold fixed3. rewrite !ascii_only_app, decimal_ascii.
  rewrite three_digits_ascii by (apply N.mod_lt; lia).
  destruct neg; reflexivity.
Qed.

Lemma fmt_3f_ascii (x : float) : ascii_only (fmt_3f x) = true.
Proof.
  destruct x as [s | s | | s m e]; simpl; try apply fixed3_ascii;
    try reflexivity.
  destruct s; reflexivity.
Qed.

Lemma bytearray_ascii_ok (s : str) :
  ascii_only s = true -> bytearray_ascii s = Ok (encode_ascii s).
Proof. unfold bytearray_ascii. intros ->. reflexivity. Qed.

(** [int] accepts a text only if, rewritten to ASCII, it consists of
    numeral characters; a text with a comma in it is therefore refused. *)
Lemma skip_spaces_numeral (t : str) :
  forallb numeral_char (skip_spaces t) = true -> forallb numeral_char t = true.
Proof.
  induction t as [| c t IH]; [reflexivity |]. cbn [skip_spaces].
  destruct (is_space c) eqn:Hs; [| trivial].
  intros H. cbn [forallb]. rewrite (IH H).
  unfold numeral_char. rewrite Hs, orb_true_r. reflexivity.
Qed.

Lemma skip_spaces_nil (t : str) :
  skip_spaces t = [] -> forallb numeral_char t = true.
Proof. intros H. apply skip_spaces_numeral. rewrite H. reflexivity. Qed.

Lemma digits_us_numeral (t : str) :
  forall acc n rest,
    digits_us acc t = Some (n, rest) ->
    forallb numeral_char rest = true -> forallb numeral_char t = true.
Proof.
  remember (length t) as k eqn:Hk. revert t Hk.
  induction k as [k IH] using lt_wf_ind. intros t Hk acc n rest.
  destruct t as [| c t]; [reflexivity |]. cbn [digits_us].
  destruct (is_digit c) eqn:Hd.
  - intros H Hr. cbn [forallb].
    rewrite (IH (length t) ltac:(subst k; cbn; lia) t eq_refl _ _ _ H Hr).
    unfold numeral_char. rewrite Hd. reflexivity.
  - destruct (c =? 95)%N eqn:Hu.
    + destruct t as [| d t]; [discriminate |].
      destruct (is_digit d) eqn:Hd'; [| discriminate].
      intros H Hr. cbn [forallb].
      rewrite (IH (length t) ltac:(subst k; cbn; lia) t eq_refl _ _ _ H Hr).
      unfold numeral_char. rewrite Hu, Hd', !orb_true_r. reflexivity.
    + intros H Hr. injection H as _ <-. exact Hr.
Qed.

Lemma read_sign_numeral (t t' : str) (neg : bool) :
  read_sign t = (neg, t') ->
  forallb numeral_char t' = true -> forallb numeral_char t = true.
Proof.
  intros H Hr. destruct t as [| c t]; [injection H as _ <-; exact Hr |].
  destruct (N.eq_dec c 43%N) as [-> | H43].
  { cbn in H. injection H as _ <-. cbn [forallb]. rewrite Hr. reflexivity. }
  destruct (N.eq_dec c 45%N) as [-> | H45].
  { cbn in H. injection H as _ <-. cbn [forallb]. rewrite Hr. reflexivity. }
  assert (read_sign (c :: t) = (false, c :: t)) as Hkeep.
  { unfold read_sign. destruct c as [| p]; [reflexivity |].
    repeat (destruct p as [p | p |]; try reflexivity; try congruence). }
  rewrite Hkeep in H. injection H as _ <-. exact Hr.
Qed.

Section IntLiteral.
Variable unicode_decimal : N -> option N.

Lemma py_int_numeral (s : str) (n : Z) :
  py_int unicode_decimal s = Ok n ->
  forallb numeral_char (transform_decimal_and_space unicode_decimal s) = true.
Proof.
  unfold py_int. intros H. apply skip_spaces_numeral.
  destruct (read_sign (skip_spaces (transform_decimal_and_space unicode_decimal s)))
    as [neg t] eqn:Hsign.
  apply (read_sign_numeral _ _ _ Hsign).
  destruct t as [| c t']; [discriminate |].
  destruct (is_digit c) eqn:Hd; [| discriminate].
  destruct (digits_us (c - 48)%N t') as [[m rest] |] eqn:Hdig; [| discriminate].
  destruct (skip_spaces rest) eqn:Hrest; [| discriminate].
  cbn [forallb]. unfold numeral_char at 1. rewrite Hd. cbn [orb andb].
  exact (digits_us_numeral _ _ _ _ Hdig (skip_spaces_nil _ Hrest)).
Qed.

(** A comma, or the ['?'] that stands for what was cut, survives the
    rewriting to ASCII. *)
Lemma transform_keeps_comma (s : str) :
  In comma s ->
  forallb numeral_char (transform_decimal_and_space unicode_decimal s) = false.
Proof.
  intros Hin. unfold transform_decimal_and_space.
  assert (forall t, In comma t -> forallb numeral_char t = false) as Hplain.
  { induction t as [| c t IH]; [intros [] |]. intros [-> | H]; [reflexivity |].
    cbn [forallb]. rewrite (IH H). apply andb_false_r. }
  destruct (ascii_only s); [exact (Hplain _ Hin) |].
  induction s as [| c s IH]; [destruct Hin |].
  cbn [transform_slow].
  destruct Hin as [-> | Hin]; [cbn; reflexivity |].
  destruct (c <? 127)%N.
  { cbn [forallb]. rewrite (IH Hin). apply andb_false_r. }
  destruct (is_unicode_space c).
  { cbn [forallb]. rewrite (IH Hin). apply andb_false_r. }
  destruct (unicode_decimal c).
  { cbn [forallb]. rewrite (IH Hin). apply andb_false_r. }
  reflexivity.
Qed.

Lemma py_int_rejects_comma (s : str) :
  In comma s ->
  py_int unicode_decimal s = Err (ValueError (InvalidIntLiteral s)).
Proof.
  intros Hin.
  destruct (py_int unicode_decimal s) as [n | e] eqn:H.
  - apply py_int_numeral in H. rewrite (transform_keeps_comma _ Hin) in H.
    discriminate.
  - revert H. unfold py_int.
    destruct (read_sign _) as [neg t].
    destruct t as [| c t']; [congruence |].
    destruct (is_digit c); [| congruence].
    destruct (digits_us _ _) as [[m rest] |]; [| congruence].
    destruct (skip_spaces rest); congruence.
Qed.

End IntLiteral.

(** A formatted command is ASCII: literals, ['%i'] and ['%.3f'] parts. *)
Ltac ascii_command :=
  rewrite ?ascii_only_app, ?fmt_i_ascii, ?fmt_3f_ascii; reflexivity.

(** * The exchange, step by step *)

Lemma after_after (w : world) (e1 e2 : list io_event) (o1 o2 : list str) :
  after (after w 1 e1 o1) 1 e2 o2 = after w 2 (e1 ++ e2) (o1 ++ o2).
Proof. unfold after. cbn. rewrite <- !app_assoc. reflexivity. Qed.

Lemma after_print (w : world) (n : nat) (e : list io_event) (o1 o2 : list str) :
  after (after w n e o1) 0 [] o2 = after w n e (o1 ++ o2).
Proof. unfold after. cbn. rewrite app_nil_r, <- app_assoc. reflexivity. Qed.

Lemma line1_after (w : world) (e : list io_event) (o : list str) :
  line1 (after w 1 e o) = line2 w.
Proof. reflexivity. Qed.

Lemma is_open_after (w : world) (n : nat) (e : list io_event) (o : list str) :
  is_open (ser (after w n e o)) = is_open (ser w).
Proof. reflexivity. Qed.

Lemma print_run (text : str) (w : world) :
  print text w = (Ok tt, after w 0 [] [text]).
Proof.
  unfold print, after. cbn. rewrite app_nil_r.
  destruct w as [[? ? ?] ?]; reflexivity.
Qed.

Section Exchange.

Context {A : Type}.
Variables (command complaint : str).
Hypothesis command_ascii : ascii_only command = true.

(** On a closed port the very first write raises and nothing changes. *)
Lemma acknowledged_closed (k : M A) (w : world) :
  is_open (ser w) = false ->
  acknowledged command complaint k w = (Err PortNotOpenError, w).
Proof using command_ascii.
  intros Hc. destruct w as [[o lines hist] out]. cbn in Hc. subst o.
  unfold acknowledged. rewrite (bytearray_ascii_ok _ command_ascii).
  reflexivity.
Qed.

(** Anything but ACK: the method raises after one write and one read. *)
Lemma acknowledged_refused (k : M A) (w : world) :
  is_open (ser w) = true ->
  strip (line1 w) <> ACK ->
  acknowledged command complaint k w
  = (Err (PfeifferException complaint), after w 1 (refused (wire command) w) []).
Proof using command_ascii.
  intros Ho Hn. destruct w as [[o lines hist] out]. cbn in Ho. subst o.
  unfold line1 in Hn. cbn [ser rx] in Hn. unfold acknowledged.
  rewrite (bytearray_ascii_ok _ command_ascii).
  cbn [bind lift ser_write ser_readline is_open ser rx log stdout].
  destruct (decide (strip (hd [] lines) <> ACK)) as [_ | Hc]; [| contradiction].
  unfold raise, after, refused, line1, wire.
  cbn [is_open ser rx log stdout Nat.iter].
  rewrite app_nil_r, <- app_assoc. reflexivity.
Qed.

(** ACK: the rest of the method runs after one write and one read. *)
Lemma acknowledged_accepted (k : M A) (w : world) :
  is_open (ser w) = true ->
  strip (line1 w) = ACK ->
  acknowledged command complaint k w
  = k (after w 1 (refused (wire command) w) []).
Proof using command_ascii.
  intros Ho Hn. destruct w as [[o lines hist] out]. cbn in Ho. subst o.
  unfold line1 in Hn. cbn [ser rx] in Hn. unfold acknowledged.
  rewrite (bytearray_ascii_ok _ command_ascii).
  cbn [bind lift ser_write ser_readline is_open ser rx log stdout].
  destruct (decide (strip (hd [] lines) <> ACK)) as [Hc | _]; [contradiction |].
  unfold after, refused, line1, wire.
  cbn [is_open ser rx log stdout Nat.iter].
  rewrite app_nil_r, <- app_assoc. reflexivity.
Qed.

End Exchange.

(** The data request: ENQ is written, one line is read and decoded. *)
Lemma requested_run {A} (k : str -> M A) (w : world) :
  is_open (ser w) = true ->
  requested k w
  = match decode_utf8 (strip (line1 w)) with
    | Ok text => k text (after w 1 [Wrote ENQ; ReadLine (line1 w)] [])
    | Err e => (Err e, after w 1 [Wrote ENQ; ReadLine (line1 w)] [])
    end.
Proof.
  intros Ho. destruct w as [[o lines hist] out]. cbn in Ho. subst o.
  unfold requested, line1, after.
  cbn [bind lift ser_write ser_readline is_open ser rx log stdout Nat.iter].
  rewrite app_nil_r, <- app_assoc.
  destruct (decode_utf8 (strip (hd [] lines))); reflexivity.
Qed.

(** A complete exchange, from the command to the decoded data line. *)
Lemma exchange_run {A} (command complaint : str) (k : str -> M A) (w : world) :
  ascii_only command = true ->
  is_open (ser w) = true ->
  strip (line1 w) = ACK ->
  acknowledged command complaint (requested k) w
  = match decode_utf8 (strip (line2 w)) with
    | Ok text => k text (after w 2 (exchanged (wire command) w) [])
    | Err e => (Err e, after w 2 (exchanged (wire command) w) [])
    end.
Proof.
  intros Ha Ho Hk.
  rewrite acknowledged_accepted by assumption.
  rewrite requested_run by (rewrite is_open_after; assumption).
  rewrite line1_after, after_after. reflexivity.
Qed.

(** * The methods as instances of the exchange *)

Section Shapes.

Variable unicode_decimal : N -> option N.

Lemma get_pressure_shape (gauge : Z) :
  get_pressure unicode_decimal gauge
  = acknowledged (u "PR" ++ fmt_i gauge)
      (u "Error Sending " ++ dquote ++ u "PR" ++ fmt_i gauge ++ dquote)
      (requested (two_fields (pressure_reading unicode_decimal))).
Proof. reflexivity. Qed.

Lemma get_gauge_type_shape :
  get_gauge_type
  = acknowledged (u "TID") (u "Error sending " ++ dquote ++ u "TID" ++ dquote)
      (requested (two_fields (fun gauge_1 gauge_2 => ret (gauge_1, gauge_2)))).
Proof. reflexivity. Qed.

Lemma set_calibration_factor_1_shape (cal : float) :
  set_calibration_factor 1 cal
  = acknowledged (u "CAL," ++ fmt_3f cal ++ u "," ++ fmt_3f (float_of_int 1))
      (u "Error sending Calibration factor")
      (requested (two_fields (fun G1_cal G2_cal => ret (Some G1_cal)))).
Proof. reflexivity. Qed.

Lemma set_calibration_factor_2_shape (cal : float) :
  set_calibration_factor 2 cal
  = acknowledged (u "CAL," ++ fmt_3f (float_of_int 1) ++ u "," ++ fmt_3f cal)
      (u "Error sending Calibration factor")
      (requested (two_fields (fun G1_cal G2_cal => ret (Some G2_cal)))).
Proof. reflexivity. Qed.

Lemma set_units_shape (unit : Z) :
  set_units unicode_decimal unit
  = acknowledged (u "UNI," ++ fmt_i unit) (u "Error changing units")
      (requested (units_report unicode_decimal)).
Proof. reflexivity. Qed.

Lemma set_filter_shape (G1 G2 : Z) :
  set_filter unicode_decimal G1 G2
  = acknowledged (u "FIL," ++ fmt_i G1 ++ u "," ++ fmt_i G2)
      (u "Error changing the filter speed to fast")
      (requested (two_fields (filter_report unicode_decimal))).
Proof. reflexivity. Qed.

Lemma set_display_resolution_shape :
  set_display_resolution unicode_decimal
  = acknowledged (u "DCD," ++ fmt_i 3)
      (u "Error in changing the display resolution")
      (requested (resolution_report unicode_decimal)).
Proof. reflexivity. Qed.

End Shapes.

(** * Data lines *)

Lemma split_comma_nonempty (s : str) : split_comma s <> [].
Proof.
  induction s as [| c s IH]; simpl; [discriminate |].
  destruct (c =? comma)%N; [discriminate |].
  destruct (split_comma s); discriminate.
Qed.

Lemma two_fields_run {A} (k : str -> str -> M A) (line x y : str) (w : world) :
  split_comma line = [x; y] -> two_fields k line w = k x y w.
Proof. intros H. unfold two_fields. rewrite H. reflexivity. Qed.

Lemma two_fields_mismatch {A} (k : str -> str -> M A) (line : str) (w : world) :
  length (split_comma line) <> 2%nat ->
  two_fields k line w = (Err (unpack_error (length (split_comma line))), w).
Proof.
  intros H. unfold two_fields, unpack_error.
  pose proof (split_comma_nonempty line) as Hne.
  destruct (split_comma line) as [| x [| y [| z fs]]]; try reflexivity;
    simpl in H; congruence.
Qed.

Lemma split_comma_single (s : str) : ~ In comma s -> split_comma s = [s].
Proof.
  induction s as [| c s IH]; [reflexivity |]. intros Hn. cbn [split_comma].
  destruct (c =? comma)%N eqn:Hc.
  - apply N.eqb_eq in Hc. subst c. exfalso. apply Hn. left. reflexivity.
  - rewrite IH; [reflexivity |]. intros H. apply Hn. right. exact H.
Qed.

Lemma several_fields_comma (s : str) :
  length (split_comma s) <> 1%nat -> In comma s.
Proof.
  intros Hlen. destruct (in_dec N.eq_dec comma s) as [H | H]; [exact H |].
  rewrite (split_comma_single _ H) in Hlen. contradiction.
Qed.

(** The status table: a label for 0 to 6 and for nothing else. *)
Lemma messages_known (n : Z) :
  (0 <= n <= 6)%Z ->
  messages !! n = nth_error status_labels (Z.to_nat n).
Proof.
  intros Hn.
  assert (n = 0 \/ n = 1 \/ n = 2 \/ n = 3 \/ n = 4 \/ n = 5 \/ n = 6)%Z
    as Hc by lia.
  repeat (destruct Hc as [-> | Hc]; [vm_compute; reflexivity |]).
  subst n. vm_compute. reflexivity.
Qed.

Lemma messages_unknown (n : Z) :
  (n < 0 \/ 6 < n)%Z -> messages !! n = None.
Proof.
  intros Hn. unfold messages. apply not_elem_of_list_to_map_1.
  cbn. rewrite !elem_of_cons, elem_of_nil. lia.
Qed.

Section Readings.

Variable unicode_decimal : N -> option N.

Lemma pressure_reading_known (status value label : str) (n : Z) (v : float)
    (w : world) :
  py_int unicode_decimal status = Ok n ->
  messages !! n = Some label ->
  py_float unicode_decimal value = Ok v ->
  pressure_reading unicode_decimal status value w
  = (Ok (label, v), after w 0 [] (if decide (n = 0%Z) then [] else [label])).
Proof.
  intros Hi Hl Hf. unfold pressure_reading.
  destruct w as [[o lines hist] out].
  unfold bind at 1. unfold lift at 1. rewrite Hi.
  destruct (decide (n <> 0%Z)) as [Hne | He].
  - destruct (decide (n = 0%Z)) as [-> | _]; [contradiction |].
    unfold getitem. rewrite Hl. cbn [bind ret print lift ser stdout].
    rewrite Hf. unfold after. cbn. rewrite app_nil_r. reflexivity.
  - destruct (decide (n = 0%Z)) as [_ | Hne]; [| contradiction].
    unfold getitem. rewrite Hl. cbn [bind ret print lift ser stdout].
    rewrite Hf. unfold after. cbn. rewrite !app_nil_r. reflexivity.
Qed.

Lemma pressure_reading_unknown (status value : str) (n : Z) (w : world) :
  py_int unicode_decimal status = Ok n ->
  messages !! n = None ->
  pressure_reading unicode_decimal status value w = (Err (KeyError n), w).
Proof.
  intros Hi Hl. unfold pressure_reading.
  unfold bind at 1. unfold lift at 1. rewrite Hi.
  assert (n <> 0%Z) as Hne by (intros ->; vm_compute in Hl; discriminate).
  destruct (decide (n <> 0%Z)) as [_ | Hc]; [| contradiction].
  unfold getitem. rewrite Hl. reflexivity.
Qed.

End Readings.

(** [get_calibration_factor] runs both halves whatever the first line is. *)
Lemma get_calibration_factor_run (w : world) :
  is_open (ser w) = true ->
  get_calibration_factor w
  = match decode_utf8 (strip (line2 w)) with
    | Ok text =>
      two_fields (fun G1_cal G2_cal => ret (G1_cal, G2_cal)) text
        (after w 2 (exchanged (wire (u "CAl")) w) [])
    | Err e => (Err e, after w 2 (exchanged (wire (u "CAl")) w) [])
    end.
Proof.
  intros Ho. destruct w as [[o lines hist] out]. cbn in Ho. subst o.
  unfold get_calibration_factor, line2, after, exchanged, line1, wire.
  rewrite bytearray_ascii_ok by reflexivity.
  cbn [bind lift ser_write ser_readline is_open ser rx log stdout Nat.iter].
  rewrite app_nil_r, <- !app_assoc. cbn [app].
  destruct (decode_utf8 (strip (hd [] (tl lines)))); reflexivity.
Qed.

Lemma get_calibration_factor_closed (w : world) :
  is_open (ser w) = false ->
  get_calibration_factor w = (Err PortNotOpenError, w).
Proof.
  intros Hc. destruct w as [[o lines hist] out]. cbn in Hc. subst o.
  reflexivity.
Qed.

(** * Readings: [get_pressure] *)

(** [float_1e_5] is a binary64 number and no binary64 number is nearer to
    one hundred-thousandth: twice the distance, scaled by [10^5 * 2^69], is
    below one unit in the last place. *)
Lemma float_1e_5_nearest :
  valid_binary prec emax float_1e_5 = true /\
  (Z.abs (2 * 5902958103587057 * 10 ^ 5 - 2 * 2 ^ 69) < 10 ^ 5)%Z.
Proof. split; [reflexivity | vm_compute; reflexivity]. Qed.

(** C3.  Answered with ACK and then the data line [0,1.0e-5],
    [get_pressure(1)] returns [("Passed", 1.0e-5)]; and whenever the status
    field of the data line is one of the codes 0 to 6, [get_pressure]
    returns the label the table gives that code together with the value
    field converted by [float], for status 0 and for every other status
    alike (a status other than 0 is also printed). *)
Theorem get_pressure_label_and_value (unicode_decimal : N -> option N) :
  get_pressure unicode_decimal 1 (fresh [reply ACK; reply (b "0,1.0e-5")])
  = (Ok (u "Passed", float_1e_5),
     after (fresh [reply ACK; reply (b "0,1.0e-5")]) 2
       [Wrote (b "PR1" ++ CR ++ LF); ReadLine (reply ACK);
        Wrote ENQ; ReadLine (reply (b "0,1.0e-5"))] [])
  /\
  forall (gauge : Z) (w : world) (text status value : str) (n : Z) (v : float),
    is_open (ser w) = true ->
    strip (line1 w) = ACK ->
    decode_utf8 (strip (line2 w)) = Ok text ->
    split_comma text = [status; value] ->
    py_int unicode_decimal status = Ok n ->
    (0 <= n <= 6)%Z ->
    py_float unicode_decimal value = Ok v ->
    exists label,
      nth_error status_labels (Z.to_nat n) = Some label /\
      get_pressure unicode_decimal gauge w
      = (Ok (label, v),
         after w 2 (exchanged (wire (u "PR" ++ fmt_i gauge)) w)
           (if decide (n = 0%Z) then [] else [label])).
Proof.
  split; [vm_compute; reflexivity |].
  intros gauge w text status value n v Ho Hack Hdec Hsplit Hint Hn Hfloat.
  pose proof (messages_known n Hn) as Hl.
  destruct (nth_error status_labels (Z.to_nat n)) as [label |] eqn:Hnth.
  - exists label. split; [reflexivity |].
    rewrite get_pressure_shape.
    rewrite exchange_run by (try assumption; ascii_command).
    rewrite Hdec, (two_fields_run _ _ _ _ _ Hsplit).
    rewrite (pressure_reading_known _ _ _ _ _ _ _ Hint Hl Hfloat).
    rewrite after_print. reflexivity.
  - apply nth_error_None in Hnth. simpl in Hnth. lia.
Qed.

(** C10.  When the status field of the data line is an integer outside 0
    to 6, [get_pressure] ends in the [KeyError] of the table lookup: no
    [PfeifferException], no result, nothing printed, and the value field is
    never converted. *)
Theorem get_pressure_unknown_status_KeyError (unicode_decimal : N -> option N)
    (gauge : Z) (w : world) (text status value : str) (n : Z) :
  is_open (ser w) = true ->
  strip (line1 w) = ACK ->
  decode_utf8 (strip (line2 w)) = Ok text ->
  split_comma text = [status; value] ->
  py_int unicode_decimal status = Ok n ->
  (n < 0 \/ 6 < n)%Z ->
  get_pressure unicode_decimal gauge w
  = (Err (KeyError n),
     after w 2 (exchanged (wire (u "PR" ++ fmt_i gauge)) w) []).
Proof.
  intros Ho Hack Hdec Hsplit Hint Hn.
  rewrite get_pressure_shape.
  rewrite exchange_run by (try assumption; ascii_command).
  rewrite Hdec, (two_fields_run _ _ _ _ _ Hsplit).
  apply pressure_reading_unknown; [assumption |].
  apply messages_unknown, Hn.
Qed.

(** * Calibration factors *)

(** C2.  [get_calibration_factor] never looks at the first line: whatever
    it is (ACK, NAK, nothing at all), the method writes ENQ, reads the
    second line and returns its two comma-separated fields as they are. *)
Theorem get_calibration_factor_skips_ack_check
    (w : world) (text G1_cal G2_cal : str) :
  is_open (ser w) = true ->
  decode_utf8 (strip (line2 w)) = Ok text ->
  split_comma text = [G1_cal; G2_cal] ->
  get_calibration_factor w
  = (Ok (G1_cal, G2_cal),
     after w 2 [Wrote (b "CAl" ++ CR ++ LF); ReadLine (line1 w);
                Wrote ENQ; ReadLine (line2 w)] []).
Proof.
  intros Ho Hdec Hsplit.
  rewrite get_calibration_factor_run by assumption.
  rewrite Hdec, (two_fields_run _ _ _ _ _ Hsplit). reflexivity.
Qed.

(** ['%.3f'] of a finite number: [thousandths] is the integer nearest to a
    thousand times the magnitude, a tie going to the even one. *)
Lemma thousandths_nearest (m k : positive) :
  let num := (Npos m * 1000)%N in
  let den := (2 ^ Npos k)%N in
  let q := thousandths m (Zneg k) in
  (2 * num <= 2 * q * den + den)%N /\ (2 * q * den <= 2 * num + den)%N /\
  ((2 * q * den = 2 * num + den \/ 2 * num = 2 * q * den + den)%N ->
   N.even q = true).
Proof.
  intros num den q. subst q. unfold thousandths. fold num. fold den.
  assert (den <> 0)%N as Hden by (apply N.pow_nonzero; discriminate).
  pose proof (N.div_mod num den Hden) as Hdm.
  pose proof (N.mod_lt num den Hden) as Hlt.
  set (q := (num / den)%N) in *. set (r := (num mod den)%N) in *.
  destruct (den <? 2 * r)%N eqn:H1.
  - apply N.ltb_lt in H1. split; [nia |]. split; [nia |].
    intros [He | He]; nia.
  - apply N.ltb_ge in H1.
    destruct (den =? 2 * r)%N eqn:H2; cbn [andb].
    + apply N.eqb_eq in H2. destruct (N.odd q) eqn:Hodd.
      * split; [nia |]. split; [nia |]. intros _.
        rewrite N.add_1_r, N.even_succ. exact Hodd.
      * split; [nia |]. split; [nia |]. intros _.
        rewrite <- N.negb_odd, Hodd. reflexivity.
    + apply N.eqb_neq in H2. split; [nia |]. split; [nia |].
      intros [He | He]; nia.
Qed.

(** The text ['%.3f'] produces for a finite number or a zero ends in a
    point and exactly three digits. *)
Lemma fmt_3f_three_decimals (x : float) :
  match x with S754_finite _ _ _ | S754_zero _ => True | _ => False end ->
  exists (whole : str) (d1 d2 d3 : N),
    fmt_3f x = whole ++ [46%N; d1; d2; d3] /\
    is_digit d1 = true /\ is_digit d2 = true /\ is_digit d3 = true.
Proof.
  assert (forall neg q, exists whole d1 d2 d3,
             fixed3 neg q = whole ++ [46%N; d1; d2; d3] /\
             is_digit d1 = true /\ is_digit d2 = true /\ is_digit d3 = true)
    as Hfixed.
  { intros neg q. unfold fixed3, three_digits.
    set (n := (q mod 1000)%N).
    assert (n < 1000)%N by (apply N.mod_lt; lia).
    assert (n / 100 < 10)%N by (apply N.Div0.div_lt_upper_bound; lia).
    assert ((n / 10) mod 10 < 10)%N by (apply N.mod_lt; lia).
    assert (n mod 10 < 10)%N by (apply N.mod_lt; lia).
    exists ((if neg then [45%N] else []) ++ decimal (q / 1000)).
    eexists _, _, _. split; [rewrite <- app_assoc; reflexivity |].
    unfold is_digit.
    clearbody n.
    split; [| split]; apply andb_true_intro; split; apply N.leb_le;
      solve [apply N.le_add_r | lia]. }
  destruct x as [s | s | | s m e]; intros Hx; try contradiction; apply Hfixed.
Qed.

(** C4.  [set_calibration_factor(1, x)] writes [CAL,<x>,1.000] with [x] in
    the ['%.3f'] rendering and returns the first field of the answer;
    [set_calibration_factor(2, x)] writes [CAL,1.000,<x>] and returns the
    second field. *)
Theorem set_calibration_factor_command_and_echo
    (cal : float) (w : world) (text G1_cal G2_cal : str) :
  is_open (ser w) = true ->
  strip (line1 w) = ACK ->
  decode_utf8 (strip (line2 w)) = Ok text ->
  split_comma text = [G1_cal; G2_cal] ->
  set_calibration_factor 1 cal w
  = (Ok (Some G1_cal),
     after w 2
       (exchanged (wire (u "CAL," ++ fmt_3f cal ++ u "," ++ u "1.000")) w) [])
  /\
  set_calibration_factor 2 cal w
  = (Ok (Some G2_cal),
     after w 2
       (exchanged (wire (u "CAL," ++ u "1.000" ++ u "," ++ fmt_3f cal)) w) []).
Proof.
  intros Ho Hack Hdec Hsplit.
  assert (fmt_3f (float_of_int 1) = u "1.000") as Hone by reflexivity.
  split.
  - rewrite set_calibration_factor_1_shape, Hone.
    rewrite exchange_run by (try assumption; ascii_command).
    rewrite Hdec, (two_fields_run _ _ _ _ _ Hsplit). reflexivity.
  - rewrite set_calibration_factor_2_shape, Hone.
    rewrite exchange_run by (try assumption; ascii_command).
    rewrite Hdec, (two_fields_run _ _ _ _ _ Hsplit). reflexivity.
Qed.

(** C9.  For a gauge index other than 1 and 2, [set_calibration_factor]
    touches nothing: no write, no read, no exception, and the result is
    [None]. *)
Theorem set_calibration_factor_other_gauge_is_noop
    (gauge : Z) (cal : float) (w : world) :
  gauge <> 1%Z -> gauge <> 2%Z ->
  set_calibration_factor gauge cal w = (Ok None, w).
Proof.
  intros H1 H2. unfold set_calibration_factor.
  destruct (decide (gauge = 1%Z)) as [? | _]; [contradiction |].
  destruct (decide (gauge = 2%Z)) as [? | _]; [contradiction |].
  reflexivity.
Qed.

(** * Units *)

(** C7, as the code has it.  Answered with ACK and then the data line [1],
    [set_units(1)] prints the sentence [The TPG261 default units are set to
    Torr] on the standard output and hands [None] back to its caller: the
    method ends in [return print(...)], so the label [Torr] reaches the
    output only, never the caller. *)
Theorem set_units_prints_Torr_returns_None (unicode_decimal : N -> option N)
    (w : world) :
  is_open (ser w) = true ->
  strip (line1 w) = ACK ->
  strip (line2 w) = b "1" ->
  units !! 1%Z = Some (u "Torr") /\
  set_units unicode_decimal 1 w
  = (Ok tt,
     after w 2 (exchanged (wire (u "UNI,1")) w)
       [u "The TPG261 default units are set to " ++ u "Torr"]).
Proof.
  intros Ho Hack Hdata. split; [vm_compute; reflexivity |].
  rewrite set_units_shape.
  change (u "UNI," ++ fmt_i 1) with (u "UNI,1").
  rewrite exchange_run by (try assumption; reflexivity).
  rewrite Hdata.
  change (decode_utf8 (b "1")) with (Ok (u "1")).
  unfold units_report.
  change (py_int unicode_decimal (u "1")) with (@Ok Z 1%Z).
  unfold bind at 1. unfold lift at 1.
  change (getitem units 1%Z) with (@ret str (u "Torr")).
  unfold bind, ret. rewrite print_run, after_print. reflexivity.
Qed.

(** * The acknowledgement check *)

Lemma wire_not_ENQ (command : str) : wire command <> ENQ.
Proof.
  unfold wire, ENQ, CR, LF. intros H.
  apply (f_equal (@length ascii)) in H.
  rewrite !length_app in H. cbn in H. lia.
Qed.

Lemma refused_no_ENQ (command : str) (w : world) :
  ~ In (Wrote ENQ) (refused (wire command) w).
Proof.
  unfold refused. intros [H | [H | []]]; [| discriminate].
  injection H as H. exact (wire_not_ENQ _ H).
Qed.

Section Refusals.

Variable unicode_decimal : N -> option N.
Variable w : world.
Hypothesis port_open : is_open (ser w) = true.
Hypothesis not_ack : strip (line1 w) <> ACK.

Lemma get_pressure_refused (gauge : Z) :
  get_pressure unicode_decimal gauge w
  = (Err (PfeifferException
            (u "Error Sending " ++ dquote ++ u "PR" ++ fmt_i gauge ++ dquote)),
     after w 1 (refused (wire (u "PR" ++ fmt_i gauge)) w) []).
Proof using port_open not_ack.
  rewrite get_pressure_shape. apply acknowledged_refused; try assumption.
  ascii_command.
Qed.

Lemma get_gauge_type_refused :
  get_gauge_type
    w
  = (Err (PfeifferException (u "Error sending " ++ dquote ++ u "TID" ++ dquote)),
     after w 1 (refused (wire (u "TID")) w) []).
Proof using port_open not_ack.
  rewrite get_gauge_type_shape. apply acknowledged_refused; try assumption.
  reflexivity.
Qed.

Lemma set_calibration_factor_1_refused (cal : float) :
  set_calibration_factor 1 cal w
  = (Err (PfeifferException (u "Error sending Calibration factor")),
     after w 1
       (refused (wire (u "CAL," ++ fmt_3f cal ++ u "," ++ u "1.000")) w) []).
Proof using port_open not_ack.
  rewrite set_calibration_factor_1_shape.
  apply acknowledged_refused; try assumption.
  ascii_command.
Qed.

Lemma set_calibration_factor_2_refused (cal : float) :
  set_calibration_factor 2 cal w
  = (Err (PfeifferException (u "Error sending Calibration factor")),
     after w 1
       (refused (wire (u "CAL," ++ u "1.000" ++ u "," ++ fmt_3f cal)) w) []).
Proof using port_open not_ack.
  rewrite set_calibration_factor_2_shape.
  apply acknowledged_refused; try assumption.
  ascii_command.
Qed.

Lemma set_units_refused (unit : Z) :
  set_units unicode_decimal unit w
  = (Err (PfeifferException (u "Error changing units")),
     after w 1 (refused (wire (u "UNI," ++ fmt_i unit)) w) []).
Proof using port_open not_ack.
  rewrite set_units_shape. apply acknowledged_refused; try assumption.
  ascii_command.
Qed.

Lemma set_filter_refused (G1 G2 : Z) :
  set_filter unicode_decimal G1 G2 w
  = (Err (PfeifferException (u "Error changing the filter speed to fast")),
     after w 1 (refused (wire (u "FIL," ++ fmt_i G1 ++ u "," ++ fmt_i G2)) w) []).
Proof using port_open not_ack.
  rewrite set_filter_shape.
  apply acknowledged_refused; try assumption.
  ascii_command.
Qed.

Lemma set_display_resolution_refused :
  set_display_resolution unicode_decimal w
  = (Err (PfeifferException (u "Error in changing the display resolution")),
     after w 1 (refused (wire (u "DCD,3")) w) []).
Proof using port_open not_ack.
  rewrite set_display_resolution_shape.
  apply acknowledged_refused; try assumption. reflexivity.
Qed.

End Refusals.

(** The six methods that check the acknowledgement stop there: when the
    first line, stripped, is not ACK they raise [PfeifferException] and the
    port has seen one write (the command) and one read, never ENQ. *)
Theorem refusal_stops_before_ENQ (unicode_decimal : N -> option N) (w : world)
    (gauge unit G1 G2 : Z) (cal : float) :
  is_open (ser w) = true ->
  strip (line1 w) <> ACK ->
  let stopped (command : str) (w' : world) :=
    w' = after w 1 [Wrote (wire command); ReadLine (line1 w)] [] /\
    ~ In (Wrote ENQ) [Wrote (wire command); ReadLine (line1 w)] in
  stopped (u "PR" ++ fmt_i gauge) (snd (get_pressure unicode_decimal gauge w)) /\
  stopped (u "TID") (snd (get_gauge_type w)) /\
  stopped (u "CAL," ++ fmt_3f cal ++ u "," ++ u "1.000")
    (snd (set_calibration_factor 1 cal w)) /\
  stopped (u "CAL," ++ u "1.000" ++ u "," ++ fmt_3f cal)
    (snd (set_calibration_factor 2 cal w)) /\
  stopped (u "UNI," ++ fmt_i unit) (snd (set_units unicode_decimal unit w)) /\
  stopped (u "FIL," ++ fmt_i G1 ++ u "," ++ fmt_i G2)
    (snd (set_filter unicode_decimal G1 G2 w)) /\
  stopped (u "DCD,3") (snd (set_display_resolution unicode_decimal w)).
Proof.
  intros Ho Hn stopped. unfold stopped.
  rewrite get_pressure_refused, get_gauge_type_refused,
    set_calibration_factor_1_refused, set_calibration_factor_2_refused,
    set_units_refused, set_filter_refused, set_display_resolution_refused
    by assumption.
  repeat split; apply (refused_no_ENQ _ w).
Qed.

(** C1.  The property asks every method to raise, and to keep ENQ off the
    wire, when the first line is not ACK.  [get_calibration_factor] does
    neither: answered with NAK it still writes ENQ, reads the data line and
    returns its fields. *)
Theorem get_calibration_factor_sends_ENQ_after_NAK :
  let w := fresh [reply NAK; reply (b "1.000,1.000")] in
  strip (line1 w) = NAK /\
  NAK <> ACK /\
  get_calibration_factor w
  = (Ok (u "1.000", u "1.000"),
     after w 2 [Wrote (b "CAl" ++ CR ++ LF); ReadLine (reply NAK);
                Wrote ENQ; ReadLine (reply (b "1.000,1.000"))] []).
Proof.
  cbv zeta. split; [reflexivity |]. split; [discriminate |].
  vm_compute. reflexivity.
Qed.

(** * Malformed data lines *)

Lemma unpack_error_not_Pfeiffer (n : nat) (msg : str) :
  unpack_error n <> PfeifferException msg.
Proof. unfold unpack_error. discriminate. Qed.

(** C5, as the code has it.  A data line that does not split into exactly
    two fields makes [get_pressure], [get_gauge_type],
    [get_calibration_factor], [set_calibration_factor] and [set_filter]
    fail in the tuple unpacking, with Python's [ValueError] and not with a
    [PfeifferException]; by then the whole exchange, ENQ included, has taken
    place. *)
Theorem field_count_mismatch_is_ValueError (unicode_decimal : N -> option N)
    (w : world) (gauge G1 G2 : Z) (cal : float) (text : str) :
  is_open (ser w) = true ->
  strip (line1 w) = ACK ->
  decode_utf8 (strip (line2 w)) = Ok text ->
  length (split_comma text) <> 2%nat ->
  let e := unpack_error (length (split_comma text)) in
  let done (command : str) := after w 2 (exchanged (wire command) w) [] in
  (exists why, e = ValueError why) /\
  get_pressure unicode_decimal gauge w = (Err e, done (u "PR" ++ fmt_i gauge)) /\
  get_gauge_type w = (Err e, done (u "TID")) /\
  get_calibration_factor w = (Err e, done (u "CAl")) /\
  set_calibration_factor 1 cal w
  = (Err e, done (u "CAL," ++ fmt_3f cal ++ u "," ++ u "1.000")) /\
  set_calibration_factor 2 cal w
  = (Err e, done (u "CAL," ++ u "1.000" ++ u "," ++ fmt_3f cal)) /\
  set_filter unicode_decimal G1 G2 w
  = (Err e, done (u "FIL," ++ fmt_i G1 ++ u "," ++ fmt_i G2)).
Proof.
  intros Ho Hack Hdec Hlen e done.
  split; [unfold e, unpack_error; eauto |].
  split; [| split; [| split; [| split; [| split]]]].
  - rewrite get_pressure_shape.
    rewrite exchange_run by (try assumption; ascii_command).
    rewrite Hdec. apply two_fields_mismatch, Hlen.
  - rewrite get_gauge_type_shape.
    rewrite exchange_run by (try assumption; reflexivity).
    rewrite Hdec. apply two_fields_mismatch, Hlen.
  - rewrite get_calibration_factor_run by assumption.
    rewrite Hdec. apply two_fields_mismatch, Hlen.
  - rewrite set_calibration_factor_1_shape.
    change (fmt_3f (float_of_int 1)) with (u "1.000").
    rewrite exchange_run by (try assumption; ascii_command).
    rewrite Hdec. apply two_fields_mismatch, Hlen.
  - rewrite set_calibration_factor_2_shape.
    change (fmt_3f (float_of_int 1)) with (u "1.000").
    rewrite exchange_run by (try assumption; ascii_command).
    rewrite Hdec. apply two_fields_mismatch, Hlen.
  - rewrite set_filter_shape.
    rewrite exchange_run by (try assumption; ascii_command).
    rewrite Hdec. apply two_fields_mismatch, Hlen.
Qed.

(** The two methods that read a single field fare no better: a data line
    with a comma in it is handed whole to [int], which refuses it with a
    [ValueError]. *)
Theorem single_field_mismatch_is_ValueError (unicode_decimal : N -> option N)
    (w : world) (unit : Z) (text : str) :
  is_open (ser w) = true ->
  strip (line1 w) = ACK ->
  decode_utf8 (strip (line2 w)) = Ok text ->
  length (split_comma text) <> 1%nat ->
  set_units unicode_decimal unit w
  = (Err (ValueError (InvalidIntLiteral text)),
     after w 2 (exchanged (wire (u "UNI," ++ fmt_i unit)) w) []) /\
  set_display_resolution unicode_decimal w
  = (Err (ValueError (InvalidIntLiteral text)),
     after w 2 (exchanged (wire (u "DCD,3")) w) []).
Proof.
  intros Ho Hack Hdec Hlen.
  pose proof (py_int_rejects_comma unicode_decimal text
                (several_fields_comma text Hlen)) as Hint.
  split.
  - rewrite set_units_shape.
    rewrite exchange_run by (try assumption; ascii_command).
    rewrite Hdec. unfold units_report, bind at 1, lift at 1.
    rewrite Hint. reflexivity.
  - rewrite set_display_resolution_shape.
    rewrite exchange_run by (try assumption; reflexivity).
    rewrite Hdec. unfold resolution_report, bind at 1, lift at 1.
    rewrite Hint. reflexivity.
Qed.

(** * The text of the exception *)

Lemma starts_with_app (needle rest : str) :
  starts_with needle (needle ++ rest) = true.
Proof.
  induction needle as [| c n IH]; simpl; [reflexivity |].
  rewrite N.eqb_refl. exact IH.
Qed.

Lemma contains_app (before needle rest : str) :
  contains needle (before ++ needle ++ rest) = true.
Proof.
  assert (forall hay, starts_with needle hay = true ->
                      contains needle hay = true) as Hstart.
  { intros hay H. destruct hay; cbn [contains]; rewrite H; reflexivity. }
  induction before as [| c p IH]; cbn [app].
  - apply Hstart, starts_with_app.
  - cbn [contains]. rewrite IH. apply orb_true_r.
Qed.

(** C6, as the code has it.  When the acknowledgement fails, the message of
    the [PfeifferException] quotes the command for [get_pressure] and
    [get_gauge_type] only; the four setters raise a fixed sentence about the
    operation in which the command mnemonic ([CAL], [UNI], [FIL], [DCD])
    does not occur. *)
Theorem refusal_messages (unicode_decimal : N -> option N) (w : world)
    (gauge unit G1 G2 : Z) (cal : float) :
  is_open (ser w) = true ->
  strip (line1 w) <> ACK ->
  (exists msg,
     fst (get_pressure unicode_decimal gauge w) = Err (PfeifferException msg) /\
     msg = u "Error Sending " ++ dquote ++ u "PR" ++ fmt_i gauge ++ dquote /\
     contains (u "PR" ++ fmt_i gauge) msg = true) /\
  (exists msg,
     fst (get_gauge_type w) = Err (PfeifferException msg) /\
     msg = u "Error sending " ++ dquote ++ u "TID" ++ dquote /\
     contains (u "TID") msg = true) /\
  (exists msg,
     fst (set_calibration_factor 1 cal w) = Err (PfeifferException msg) /\
     fst (set_calibration_factor 2 cal w) = Err (PfeifferException msg) /\
     msg = u "Error sending Calibration factor" /\
     contains (u "CAL") msg = false) /\
  (exists msg,
     fst (set_units unicode_decimal unit w) = Err (PfeifferException msg) /\
     msg = u "Error changing units" /\
     contains (u "UNI") msg = false) /\
  (exists msg,
     fst (set_filter unicode_decimal G1 G2 w) = Err (PfeifferException msg) /\
     msg = u "Error changing the filter speed to fast" /\
     contains (u "FIL") msg = false) /\
  (exists msg,
     fst (set_display_resolution unicode_decimal w)
     = Err (PfeifferException msg) /\
     msg = u "Error in changing the display resolution" /\
     contains (u "DCD") msg = false).
Proof.
  intros Ho Hn.
  split; [| split; [| split; [| split; [| split]]]]; eexists.
  - rewrite get_pressure_refused by assumption.
    split; [reflexivity |]. split; [reflexivity |].
    rewrite (app_assoc (u "PR")).
    apply (contains_app (u "Error Sending " ++ dquote)).
  - rewrite get_gauge_type_refused by assumption.
    split; [reflexivity |]. split; reflexivity.
  - rewrite set_calibration_factor_1_refused,
      set_calibration_factor_2_refused by assumption.
    split; [reflexivity |]. split; [reflexivity |]. split; reflexivity.
  - rewrite set_units_refused by assumption.
    split; [reflexivity |]. split; reflexivity.
  - rewrite set_filter_refused by assumption.
    split; [reflexivity |]. split; reflexivity.
  - rewrite set_display_resolution_refused by assumption.
    split; [reflexivity |]. split; reflexivity.
Qed.

(** * Closing the port *)

Lemma close_closes (w : world) : is_open (ser (snd (close w))) = false.
Proof. destruct w as [[[] lines hist] out]; reflexivity. Qed.

Lemma close_closed (w : world) :
  is_open (ser w) = false -> close w = (Ok tt, w).
Proof.
  intros Hc. destruct w as [[o lines hist] out]. cbn in Hc. subst o.
  reflexivity.
Qed.

Lemma releases_close (w : world) :
  releases (snd (close w))
  = (releases w + (if is_open (ser w) then 1 else 0))%nat.
Proof.
  destruct w as [[[] lines hist] out]; unfold releases; cbn.
  - rewrite List.filter_app, length_app. reflexivity.
  - lia.
Qed.

Section Closed.

Variable unicode_decimal : N -> option N.
Variable w : world.
Hypothesis port_closed : is_open (ser w) = false.

Lemma get_pressure_closed (gauge : Z) :
  get_pressure unicode_decimal gauge w = (Err PortNotOpenError, w).
Proof using port_closed.
  rewrite get_pressure_shape. apply acknowledged_closed; [| assumption].
  ascii_command.
Qed.

Lemma get_gauge_type_closed : get_gauge_type w = (Err PortNotOpenError, w).
Proof using port_closed.
  rewrite get_gauge_type_shape. apply acknowledged_closed; [| assumption].
  reflexivity.
Qed.

Lemma set_calibration_factor_closed (gauge : Z) (cal : float) :
  set_calibration_factor gauge cal w
  = (if decide (gauge = 1%Z \/ gauge = 2%Z)
     then Err PortNotOpenError else Ok None, w).
Proof using port_closed.
  destruct (decide (gauge = 1%Z \/ gauge = 2%Z)) as [[-> | ->] | Hn].
  - rewrite set_calibration_factor_1_shape.
    apply acknowledged_closed; [| assumption].
    ascii_command.
  - rewrite set_calibration_factor_2_shape.
    apply acknowledged_closed; [| assumption].
    ascii_command.
  - unfold set_calibration_factor.
    destruct (decide (gauge = 1%Z)) as [? | _]; [tauto |].
    destruct (decide (gauge = 2%Z)) as [? | _]; [tauto |].
    reflexivity.
Qed.

Lemma set_units_closed (unit : Z) :
  set_units unicode_decimal unit w = (Err PortNotOpenError, w).
Proof using port_closed.
  rewrite set_units_shape. apply acknowledged_closed; [| assumption].
  ascii_command.
Qed.

Lemma set_filter_closed (G1 G2 : Z) :
  set_filter unicode_decimal G1 G2 w = (Err PortNotOpenError, w).
Proof using port_closed.
  rewrite set_filter_shape.
  apply acknowledged_closed; [| assumption].
  ascii_command.
Qed.

Lemma set_display_resolution_closed :
  set_display_resolution unicode_decimal w = (Err PortNotOpenError, w).
Proof using port_closed.
  rewrite set_display_resolution_shape.
  apply acknowledged_closed; [| assumption]. reflexivity.
Qed.

Lemma init_closed : __init__ unicode_decimal w = (Err PortNotOpenError, w).
Proof using port_closed.
  unfold __init__. unfold bind at 1. rewrite set_filter_closed. reflexivity.
Qed.

End Closed.

(** C8, as the code has it.  [close()] twice does not raise, and the second
    call changes nothing, so the port is released once.  After [close()]
    every method that issues a command raises at its first write, before a
    byte is written or read and leaving the state as it was;
    [set_calibration_factor] with a gauge other than 1 and 2 issues no
    command and returns [None] as it does on an open port. *)
Theorem close_twice_and_use_after_close (unicode_decimal : N -> option N)
    (w : world) (gauge unit G1 G2 : Z) (cal : float) :
  let closed := snd (close w) in
  fst (close w) = Ok tt /\
  close closed = (Ok tt, closed) /\
  releases closed = (releases w + (if is_open (ser w) then 1 else 0))%nat /\
  get_pressure unicode_decimal gauge closed = (Err PortNotOpenError, closed) /\
  get_gauge_type closed = (Err PortNotOpenError, closed) /\
  get_calibration_factor closed = (Err PortNotOpenError, closed) /\
  set_calibration_factor gauge cal closed
  = (if decide (gauge = 1%Z \/ gauge = 2%Z)
     then Err PortNotOpenError else Ok None, closed) /\
  set_units unicode_decimal unit closed = (Err PortNotOpenError, closed) /\
  set_filter unicode_decimal G1 G2 closed = (Err PortNotOpenError, closed) /\
  set_display_resolution unicode_decimal closed
  = (Err PortNotOpenError, closed) /\
  __init__ unicode_decimal closed = (Err PortNotOpenError, closed).
Proof.
  intros closed. pose proof (close_closes w) as Hc. fold closed in Hc.
  split; [destruct w as [[[] lines hist] out]; reflexivity |].
  split; [apply close_closed, Hc |].
  split; [apply releases_close |].
  split; [apply get_pressure_closed, Hc |].
  split; [apply get_gauge_type_closed, Hc |].
  split; [apply get_calibration_factor_closed, Hc |].
  split; [apply set_calibration_factor_closed, Hc |].
  split; [apply set_units_closed, Hc |].
  split; [apply set_filter_closed, Hc |].
  split; [apply set_display_resolution_closed, Hc |].
  apply init_closed, Hc.
Qed.

(** * Instances *)

(** C3 at a reading with status 3. *)
Lemma get_pressure_label_and_value_witness :
  exists label,
    nth_error status_labels 3 = Some label /\
    get_pressure no_unicode_digits 2
      (fresh [reply ACK; reply (b "3,2.5e-3")])
    = (Ok (label, S754_finite false 5764607523034235 (-61)),
       after (fresh [reply ACK; reply (b "3,2.5e-3")]) 2
         (exchanged (wire (u "PR" ++ fmt_i 2))
            (fresh [reply ACK; reply (b "3,2.5e-3")]))
         [label]).
Proof.
  apply (proj2 (get_pressure_label_and_value no_unicode_digits) 2%Z
           (fresh [reply ACK; reply (b "3,2.5e-3")])
           (u "3,2.5e-3") (u "3") (u "2.5e-3") 3%Z
           (S754_finite false 5764607523034235 (-61)));
    try reflexivity; lia.
Defined.

(** C10 at a data line with status 7. *)
Lemma get_pressure_unknown_status_KeyError_witness :
  get_pressure no_unicode_digits 1 (fresh [reply ACK; reply (b "7,1.0e-5")])
  = (Err (KeyError 7),
     after (fresh [reply ACK; reply (b "7,1.0e-5")]) 2
       [Wrote (b "PR1" ++ CR ++ LF); ReadLine (reply ACK);
        Wrote ENQ; ReadLine (reply (b "7,1.0e-5"))] []).
Proof.
  apply (get_pressure_unknown_status_KeyError no_unicode_digits 1%Z
           (fresh [reply ACK; reply (b "7,1.0e-5")])
           (u "7,1.0e-5") (u "7") (u "1.0e-5") 7%Z);
    try reflexivity; lia.
Defined.

(** C2 at a port that answers NAK. *)
Lemma get_calibration_factor_skips_ack_check_witness :
  get_calibration_factor (fresh [reply NAK; reply (b "1.250,0.980")])
  = (Ok (u "1.250", u "0.980"),
     after (fresh [reply NAK; reply (b "1.250,0.980")]) 2
       [Wrote (b "CAl" ++ CR ++ LF); ReadLine (reply NAK);
        Wrote ENQ; ReadLine (reply (b "1.250,0.980"))] []).
Proof.
  apply (get_calibration_factor_skips_ack_check
           (fresh [reply NAK; reply (b "1.250,0.980")])
           (u "1.250,0.980") (u "1.250") (u "0.980"));
    reflexivity.
Defined.

(** C4 at the factor 1.25. *)
Lemma set_calibration_factor_command_and_echo_witness :
  let x := S754_finite false 5629499534213120 (-52) in
  let w := fresh [reply ACK; reply (b "1.250,1.000")] in
  set_calibration_factor 1 x w
  = (Ok (Some (u "1.250")),
     after w 2 (exchanged (b "CAL,1.250,1.000" ++ CR ++ LF) w) [])
  /\
  set_calibration_factor 2 x w
  = (Ok (Some (u "1.000")),
     after w 2 (exchanged (b "CAL,1.000,1.250" ++ CR ++ LF) w) []).
Proof.
  apply (set_calibration_factor_command_and_echo
           (S754_finite false 5629499534213120 (-52))
           (fresh [reply ACK; reply (b "1.250,1.000")])
           (u "1.250,1.000") (u "1.250") (u "1.000"));
    reflexivity.
Defined.

(** C9 at gauge 3. *)
Lemma set_calibration_factor_other_gauge_is_noop_witness :
  set_calibration_factor 3 (float_of_int 1) (fresh [reply ACK])
  = (Ok None, fresh [reply ACK]).
Proof.
  apply (set_calibration_factor_other_gauge_is_noop 3%Z (float_of_int 1)
           (fresh [reply ACK])); lia.
Defined.

(** C7 at a fresh port. *)
Lemma set_units_prints_Torr_returns_None_witness :
  units !! 1%Z = Some (u "Torr") /\
  set_units no_unicode_digits 1 (fresh [reply ACK; reply (b "1")])
  = (Ok tt,
     after (fresh [reply ACK; reply (b "1")]) 2
       [Wrote (b "UNI,1" ++ CR ++ LF); ReadLine (reply ACK);
        Wrote ENQ; ReadLine (reply (b "1"))]
       [u "The TPG261 default units are set to Torr"]).
Proof.
  apply (set_units_prints_Torr_returns_None no_unicode_digits
           (fresh [reply ACK; reply (b "1")])); reflexivity.
Defined.

(** C7 fails as stated: what [set_units(1)] hands its caller when the
    device confirms [1] is [None], not the label [Torr]; it is the very
    value the caller gets when the device confirms [0], and only the
    printed lines tell the two units apart. *)
Lemma set_units_result_counterexample :
  let torr := fresh [reply ACK; reply (b "1")] in
  let mbar := fresh [reply ACK; reply (b "0")] in
  fst (set_units no_unicode_digits 1 torr) = Ok tt /\
  fst (set_units no_unicode_digits 1 mbar)
  = fst (set_units no_unicode_digits 1 torr) /\
  stdout (snd (set_units no_unicode_digits 1 torr))
  = [u "The TPG261 default units are set to Torr"] /\
  stdout (snd (set_units no_unicode_digits 1 mbar))
  = [u "The TPG261 default units are set to mbar/bar"].
Proof. cbv zeta. repeat split. Qed.

(** C5 at a data line with three fields. *)
Lemma field_count_mismatch_is_ValueError_witness :
  let w := fresh [reply ACK; reply (b "0,1.0e-5,9")] in
  let e := ValueError (TooManyValues 2) in
  fst (get_pressure no_unicode_digits 1 w) = Err e /\
  fst (get_gauge_type w) = Err e /\
  fst (get_calibration_factor w) = Err e /\
  fst (set_calibration_factor 1 (float_of_int 1) w) = Err e /\
  fst (set_calibration_factor 2 (float_of_int 1) w) = Err e /\
  fst (set_filter no_unicode_digits 1 1 w) = Err e.
Proof.
  cbv zeta.
  destruct (field_count_mismatch_is_ValueError no_unicode_digits
              (fresh [reply ACK; reply (b "0,1.0e-5,9")]) 1%Z 1%Z 1%Z
              (float_of_int 1) (u "0,1.0e-5,9"))
    as (_ & H1 & H2 & H3 & H4 & H5 & H6);
    try reflexivity; [vm_compute; discriminate |].
  rewrite H1, H2, H3, H4, H5, H6. repeat split.
Defined.

(** C5 fails as stated: a data line with a single field ends [get_pressure]
    in a [ValueError], which is no [PfeifferException]. *)
Lemma field_count_mismatch_counterexample :
  let w := fresh [reply ACK; reply (b "0")] in
  strip (line1 w) = ACK /\
  decode_utf8 (strip (line2 w)) = Ok (u "0") /\
  length (split_comma (u "0")) = 1%nat /\
  fst (get_pressure no_unicode_digits 1 w)
  = Err (ValueError (NotEnoughValues 2 1)) /\
  ~ (exists msg,
       fst (get_pressure no_unicode_digits 1 w) = Err (PfeifferException msg)).
Proof.
  cbv zeta. repeat (split; [reflexivity |]).
  intros [msg H]. vm_compute in H. discriminate.
Qed.

(** C6 at a port that answers NAK. *)
Lemma refusal_messages_witness :
  let w := fresh [reply NAK] in
  fst (get_pressure no_unicode_digits 1 w)
  = Err (PfeifferException (u "Error Sending " ++ dquote ++ u "PR1" ++ dquote))
  /\
  fst (set_units no_unicode_digits 1 w)
  = Err (PfeifferException (u "Error changing units")).
Proof.
  cbv zeta.
  destruct (refusal_messages no_unicode_digits (fresh [reply NAK])
              1%Z 1%Z 1%Z 1%Z (float_of_int 1))
    as ((m1 & H1 & -> & _) & _ & _ & (m4 & H4 & -> & _) & _);
    [reflexivity | vm_compute; discriminate |].
  rewrite H1, H4. split; reflexivity.
Defined.

(** C6 fails as stated: refused, [set_display_resolution] raises a message
    in which its command [DCD] occurs in no spelling, and [set_units] one
    without its command [UNI]. *)
Lemma refusal_messages_counterexample :
  let w := fresh [reply NAK] in
  let msg := u "Error in changing the display resolution" in
  strip (line1 w) <> ACK /\
  fst (set_display_resolution no_unicode_digits w)
  = Err (PfeifferException msg) /\
  contains (u "DCD") msg = false /\
  contains (u "dcd") (map lower msg) = false /\
  fst (set_units no_unicode_digits 1 w)
  = Err (PfeifferException (u "Error changing units")) /\
  contains (u "UNI") (u "Error changing units") = false.
Proof.
  cbv zeta. split; [vm_compute; discriminate |]. repeat split.
Qed.

(** C8 fails as stated: after [close()], [set_calibration_factor(3, 1)]
    does not fail, it returns [None]. *)
Lemma use_after_close_counterexample :
  let closed := snd (close (fresh [])) in
  is_open (ser closed) = false /\
  set_calibration_factor 3 (float_of_int 1) closed = (Ok None, closed) /\
  ~ (exists e, fst (set_calibration_factor 3 (float_of_int 1) closed) = Err e).
Proof.
  cbv zeta. split; [reflexivity |]. split; [reflexivity |].
  intros [e H]. vm_compute in H. discriminate.
Qed.
